(** * Two Pathway LLM pipelines: the contextless and the context-aware app

    Embedding of
      - [src/examples/pipelines/contextless/app.py]
      - [src/llm_app/pathway_pipelines/contextful_s3/app.py]

    Both scripts describe a dataflow over Pathway tables and hand it to the
    engine with [pw.run()].  A table is a finite map from row identifiers
    (pointers assigned by the framework) to rows, and the model below gives
    the meaning of a script on one snapshot of its inputs: the connectors,
    the model wrappers, the nearest-neighbour index and the engine are
    external, every use of them is an event answered by an oracle, and an
    answer may be a raised exception.

    The model evaluates the expressions of a [select] where the script
    writes the [select]; the engine evaluates them inside [pw.run()], after
    the script has called the response writer and [pw.run()].  The order of
    the events of a trace, and what follows a call that raises, are therefore
    the model's and not the engine's.  The statements below speak of the
    events that occur, of how often they occur and of the tables of a run
    that returns; none of them depends on the order of the per-row calls. *)

From Stdlib Require Import ZArith String Ascii List PrimFloat.
From stdpp Require Import base option list gmap fin_maps.

Local Open Scope Z_scope.
Local Open Scope string_scope.
Local Open Scope list_scope.

(** ** Pathway tables *)

Module pw.

(** Row identifier, [pw.Pointer]: assigned by the framework, never computed
    by the scripts. *)
Abbreviation Pointer := N.

(** A table: rows keyed by their identifier; the key set is the table's
    universe. *)
Abbreviation Table := (gmap N).

(** Column types, as the Python annotations of a schema class name them. *)
Inductive ColumnType := str | int | bool.

(** [pw.Schema]: the declared columns, in declaration order. *)
Definition Schema := list (string * ColumnType).

(** [t1 + t2]: the columns of both tables, row by row over the common
    universe. *)
Definition add {A B} (t1 : Table A) (t2 : Table B) : Table (A * B) :=
  map_zip t1 t2.

End pw.

Import pw.
Declare Scope table_scope.
Delimit Scope table_scope with T.
Infix "+" := pw.add : table_scope.

Set Warnings "-inexact-float".

(** ** Rows and objects that cross the boundary to the framework *)

(** The columns of the input rows; [this.query row] is [pw.this.query] where
    [row] is the current row. *)
Module this.

(** A row read under [DocumentInputSchema]. *)
Record DocumentRow := { doc : string }.

(** A row read under [QueryInputSchema]. *)
Record QueryRow := { query : string; user : string }.

End this.

Abbreviation DocumentRow := this.DocumentRow.
Abbreviation QueryRow := this.QueryRow.

(** The [data] column: the vector an embedder returns.  The scripts only
    pass it on. *)
Definition Embedding := list float.

(** A value in a column of a table that a script builds with [select]. *)
Inductive Value :=
| VPointer (p : Pointer)
| VStr (s : string).

(** A row that a script builds with [select(name=..., ...)]: its columns by
    name, in the order of the keywords.  A row of [responses] is built by
    [select(query_id=..., result=...)]. *)
Abbreviation Row := (list (string * Value)).

(** The value of the column [name] of a row. *)
Fixpoint column (name : string) (r : Row) : option Value :=
  match r with
  | [] => None
  | (n, v) :: r => if String.eqb n name then Some v else column name r
  end.

(** [pw.io.s3.AwsS3Settings(bucket_name=..., region=...)]. *)
Inductive AwsS3Settings := AwsS3Settings_new (bucket_name region : string).

(** The wrappers of [llm_app.model_wrappers]; the scripts construct them
    from an API key and call their [apply]. *)
Inductive OpenAIChatGPTModel := OpenAIChatGPTModel_new (api_key : string).
Inductive OpenAIEmbeddingModel := OpenAIEmbeddingModel_new (api_key : string).

(** [KNNIndex(enriched_documents, d=...)]: the indexed table, whose rows
    carry the columns [doc] and [data], and the dimension. *)
Inductive KNNIndex :=
  KNNIndex_new (data : Table (DocumentRow * Embedding)) (d : Z).

(** ** External calls

    One constructor per operation that the scripts ask of the framework or
    of the model wrappers, with the arguments of the call site; the index is
    the type of the answer.  [index_query] answers with the rows of the
    queries extended by the column [result]. *)
Inductive Call : Type -> Type :=
| s3_read (path : string) (aws_s3_settings : AwsS3Settings) (format : string)
    (schema : Schema) (mode : string) : Call (Table DocumentRow)
| rest_connector (host : string) (port : Z) (schema : Schema)
    (autocommit_duration_ms : Z) : Call (Table QueryRow)
| embedder_apply (embedder : OpenAIEmbeddingModel) (text : string)
    (locator : string) : Call Embedding
| model_apply (model : OpenAIChatGPTModel) (text : string) (locator : string)
    (temperature : float) (max_tokens : Z) : Call string
| index_query (index : KNNIndex) (queries : Table (QueryRow * Embedding))
    (k : Z) : Call (Table (QueryRow * Embedding * list string))
| response_writer (responses : Table Row) : Call unit
| pw_run : Call unit.

(** A call that was issued, as it appears in the trace of a run. *)
Inductive Event :=
| Ev {T : Type} (c : Call T).

(** A Python exception, by its message. *)
Definition Exception := string.

(** What a call, or a whole run, ends with. *)
Inductive Outcome (T : Type) :=
| Returned (x : T)
| Raised (e : Exception).
Arguments Returned {T} x.
Arguments Raised {T} e.

(** The environment: the answer to every call.  It is a function, so the
    external services are fixed during a run. *)
Definition Oracle := forall T, Call T -> Outcome T.

(** ** Programs over the external calls *)

Inductive Prog (A : Type) : Type :=
| Ret (a : A)
| Vis {T : Type} (c : Call T) (k : T -> Prog A).
Arguments Ret {A} a.
Arguments Vis {A T} c k.

Fixpoint bind {A B} (p : Prog A) (f : A -> Prog B) : Prog B :=
  match p with
  | Ret a => f a
  | Vis c k => Vis c (fun x => bind (k x) f)
  end.

#[global] Instance Prog_ret : MRet Prog := @Ret.
#[global] Instance Prog_bind : MBind Prog := fun A B f p => bind p f.

Definition trigger {T} (c : Call T) : Prog T := Vis c Ret.

(** Run a program against an oracle: the calls issued and the outcome.  The
    list is in the order of the model; a call that raises ends the model's
    run, and how the engine reports a row that fails is not modelled. *)
Fixpoint exec {A} (o : Oracle) (p : Prog A) : list Event * Outcome A :=
  match p with
  | Ret a => ([], Returned a)
  | Vis c k =>
      match o _ c with
      | Returned x => let '(tr, r) := exec o (k x) in (Ev c :: tr, r)
      | Raised e => ([Ev c], Raised e)
      end
  end.

Definition trace {A} (o : Oracle) (p : Prog A) : list Event := (exec o p).1.
Definition outcome {A} (o : Oracle) (p : Prog A) : Outcome A := (exec o p).2.

(** [f] on every element, left to right. *)
Fixpoint mapM {A B} (f : A -> Prog B) (l : list A) : Prog (list B) :=
  match l with
  | [] => mret []
  | a :: l => b ← f a; bs ← mapM f l; mret (b :: bs)
  end.

(** [t.select(...)]: a table over the universe of [t] whose row at [id] is
    the value of the expression on the row of [t] at [id]; the expression
    receives [pw.this.id] and the row.  The calls of the expression are
    issued here, once per row (the engine issues them inside [pw.run()]). *)
Definition select {A B} (t : Table A) (f : Pointer -> A -> Prog B)
  : Prog (Table B) :=
  rows ← mapM (fun '(id, row) => b ← f id row; mret (id, b)) (map_to_list t);
  mret (list_to_map rows).

(** ** src/examples/pipelines/contextless/app.py *)

Module Contextless.

Definition QueryInputSchema : Schema := [("query", str); ("user", str)].

(** The keyword arguments of [run]; [**kwargs] is not read. *)
Record Args := {
  api_key : string;
  host : string;
  port : Z;
  model_locator : string;
  max_tokens : Z;
  temperature : float
}.

(** The defaults of the signature. *)
Definition defaults : Args := {|
  api_key := "";
  host := "0.0.0.0";
  port := 8080;
  model_locator := "gpt2";
  max_tokens := 60;
  temperature := 0.8
|}.

Definition run (a : Args) : Prog unit :=
  query ← trigger (rest_connector a.(host) a.(port) QueryInputSchema 50);
  let model := OpenAIChatGPTModel_new a.(api_key) in
  responses ← select query (fun id row =>
    r ← trigger (model_apply model (this.query row) a.(model_locator)
                   a.(temperature) a.(max_tokens));
    mret [("query_id", VPointer id); ("result", VStr r)]);
  _ ← trigger (response_writer responses);
  trigger pw_run.

(** [if __name__ == "__main__": run()]. *)
Definition main : Prog unit := run defaults.

End Contextless.

(** ** src/llm_app/pathway_pipelines/contextful_s3/app.py *)

Module ContextfulS3.

Definition DocumentInputSchema : Schema := [("doc", str)].

Definition QueryInputSchema : Schema := [("query", str); ("user", str)].

(** [llm_app.config.Config], by the attributes that [run] reads. *)
Record Config := {
  api_key : string;
  embedder_locator : string;
  embedding_dimension : Z;
  rest_host : string;
  rest_port : Z;
  model_locator : string;
  temperature : float;
  max_tokens : Z
}.

(** The line feed of the Python literals. *)
Definition LF : string := String (ascii_of_nat 10) EmptyString.

(** The body of the [@pw.udf] of [run]; [String.concat] is [str.join]. *)
Definition build_prompt (documents : list string) (query : string) : string :=
  let docs_str := String.concat LF documents in
  let prompt :=
    ("Given the following documents : " ++ LF ++ " " ++ docs_str ++ " " ++ LF
       ++ "answer this query: " ++ query)%string in
  prompt.

Definition run (config : Config) : Prog unit :=
  let embedder := OpenAIEmbeddingModel_new config.(api_key) in
  documents ← trigger (s3_read "llm_demo/data/"
                         (AwsS3Settings_new "pathway-examples" "eu-central-1")
                         "json" DocumentInputSchema "streaming");
  data ← select documents (fun _ row =>
    trigger (embedder_apply embedder (this.doc row) config.(embedder_locator)));
  let enriched_documents := (documents + data)%T in
  let index := KNNIndex_new enriched_documents config.(embedding_dimension) in
  query ← trigger (rest_connector config.(rest_host) config.(rest_port)
                     QueryInputSchema 50);
  data ← select query (fun _ row =>
    trigger (embedder_apply embedder (this.query row) config.(embedder_locator)));
  let query := (query + data)%T in
  nearest ← trigger (index_query index query 3);
  (* columns of [query_context]: (query, documents_list) *)
  query_context ← select nearest (fun _ row =>
    mret (this.query row.1.1, row.2));
  prompt ← select query_context (fun _ row =>
    mret (build_prompt row.2 row.1));
  let model := OpenAIChatGPTModel_new config.(api_key) in
  responses ← select prompt (fun id row =>
    r ← trigger (model_apply model row config.(model_locator)
                   config.(temperature) config.(max_tokens));
    mret [("query_id", VPointer id); ("result", VStr r)]);
  _ ← trigger (response_writer responses);
  trigger pw_run.

End ContextfulS3.

(** ** What a trace shows *)

(** The tables handed to the response writer. *)
Definition written (tr : list Event) : list (Table Row) :=
  flat_map (fun ev =>
    match ev with
    | Ev c => match c with response_writer responses => [responses] | _ => [] end
    end) tr.

(** The event is not a REST connector opened under another schema. *)
Definition listens_with (schema : Schema) (ev : Event) : Prop :=
  match ev with
  | Ev c => match c with
            | rest_connector _ _ schema' _ => schema' = schema
            | _ => True
            end
  end.

(** The event does not read documents. *)
Definition reads_nothing (ev : Event) : Prop :=
  match ev with
  | Ev c => match c with s3_read _ _ _ _ _ => False | _ => True end
  end.

(** The event, if it is a chat call, carries the given model identifier,
    temperature and token limit, and if it is an embedding call, carries the
    given embedder identifier ([None]: there is no embedding call). *)
Definition configured (locator : string) (temperature : float) (max_tokens : Z)
    (embedder_locator : option string) (ev : Event) : Prop :=
  match ev with
  | Ev c => match c with
            | model_apply _ _ l t m =>
                l = locator /\ t = temperature /\ m = max_tokens
            | embedder_apply _ _ l => embedder_locator = Some l
            | _ => True
            end
  end.

(** In the run of [p], the connector [listen] delivers the query record
    [row] under the identifier [id], and the run returns. *)
Definition receives (o : Oracle) (p : Prog unit) (listen : Call (Table QueryRow))
    (id : Pointer) (row : QueryRow) : Prop :=
  outcome o p = Returned tt
  /\ exists queries, o _ listen = Returned queries /\ queries !! id = Some row.

(** The run of [p] hands one table to the response writer, and its row at
    [id] is [r]. *)
Definition responds (o : Oracle) (p : Prog unit) (id : Pointer) (r : Row)
  : Prop :=
  exists responses,
    written (trace o p) = [responses] /\ responses !! id = Some r.

(** The event, if it is an index lookup, is the lookup of [queries] in
    [index] with the given [k]. *)
Definition looks_up (index : KNNIndex) (queries : Table (QueryRow * Embedding))
    (k : Z) (ev : Event) : Prop :=
  match ev with
  | Ev c => match c with
            | index_query index' queries' k' =>
                index' = index /\ queries' = queries /\ k' = k
            | _ => True
            end
  end.

(** The event, if it is an index lookup, asks for [k] neighbours. *)
Definition asks_for (k : Z) (ev : Event) : Prop :=
  match ev with
  | Ev c => match c with index_query _ _ k' => k' = k | _ => True end
  end.

(** The event, if it is a chat call, sends the prompt built from the
    [result] and the [query] of a row of [nearest]. *)
Definition prompted_from (nearest : Table (QueryRow * Embedding * list string))
    (ev : Event) : Prop :=
  match ev with
  | Ev c => match c with
            | model_apply _ text _ _ _ =>
                exists id row,
                  nearest !! id = Some row
                  /\ text = ContextfulS3.build_prompt row.2 (this.query row.1.1)
            | _ => True
            end
  end.

(** The event, if it is a call of a model wrapper, goes through a wrapper
    built from [api_key]. *)
Definition keyed (api_key : string) (ev : Event) : Prop :=
  match ev with
  | Ev c => match c with
            | model_apply model _ _ _ _ => model = OpenAIChatGPTModel_new api_key
            | embedder_apply embedder _ _ =>
                embedder = OpenAIEmbeddingModel_new api_key
            | _ => True
            end
  end.

(** The event, if it opens a REST connector, opens it on [host] and [port]
    with the given autocommit period. *)
Definition listens_on (host : string) (port : Z) (autocommit_duration_ms : Z)
    (ev : Event) : Prop :=
  match ev with
  | Ev c => match c with
            | rest_connector host' port' _ ms =>
                host' = host /\ port' = port /\ ms = autocommit_duration_ms
            | _ => True
            end
  end.

(** The event, if it is a chat call, sends the [query] text of a row that
    [listen] delivered. *)
Definition asks_a_query (o : Oracle) (listen : Call (Table QueryRow))
    (ev : Event) : Prop :=
  match ev with
  | Ev c => match c with
            | model_apply _ text _ _ _ =>
                exists queries id row,
                  o _ listen = Returned queries /\ queries !! id = Some row
                  /\ text = this.query row
            | _ => True
            end
  end.

(** The event, if it is an embedding call, sends the [doc] text of a row
    that [read] delivered or the [query] text of a row that [listen]
    delivered. *)
Definition embeds_an_input (o : Oracle) (read : Call (Table DocumentRow))
    (listen : Call (Table QueryRow)) (ev : Event) : Prop :=
  match ev with
  | Ev c => match c with
            | embedder_apply _ text _ =>
                (exists documents id row,
                   o _ read = Returned documents /\ documents !! id = Some row
                   /\ text = this.doc row)
                \/ (exists queries id row,
                      o _ listen = Returned queries /\ queries !! id = Some row
                      /\ text = this.query row)
            | _ => True
            end
  end.

(** [s] occurs in [t]. *)
Definition occurs_in (s t : string) : Prop :=
  exists before after, t = (before ++ s ++ after)%string.

(** ** The lookup of the context-aware run *)

(** [t'] is [t] with the column [data]: every row of [t] paired with the
    vector that the oracle returns for [embed row], and no other row. *)
Definition embedded_with {A} (o : Oracle) (embed : A -> Call Embedding)
    (t : Table A) (t' : Table (A * Embedding)) : Prop :=
  forall id,
    match t !! id with
    | Some row =>
        exists e, o _ (embed row) = Returned e /\ t' !! id = Some (row, e)
    | None => t' !! id = None
    end.

(** [queries] are the rows that the REST connector of the run delivers and
    [nearest] is the answer to the lookup of the run: the lookup, with
    [k = 3], of these rows with their embedded [query] in the index over the
    rows of the bucket with their embedded [doc]; the run has no other
    lookup. *)
Definition lookup_of_run (o : Oracle) (config : ContextfulS3.Config)
    (queries : Table QueryRow)
    (nearest : Table (QueryRow * Embedding * list string)) : Prop :=
  let embed (text : string) :=
    embedder_apply (OpenAIEmbeddingModel_new config.(ContextfulS3.api_key))
      text config.(ContextfulS3.embedder_locator) in
  exists documents enriched_documents asked,
    let index :=
      KNNIndex_new enriched_documents
        config.(ContextfulS3.embedding_dimension) in
    o _ (s3_read "llm_demo/data/"
           (AwsS3Settings_new "pathway-examples" "eu-central-1")
           "json" ContextfulS3.DocumentInputSchema "streaming")
    = Returned documents
    /\ embedded_with o (fun row => embed (this.doc row)) documents
         enriched_documents
    /\ o _ (rest_connector config.(ContextfulS3.rest_host)
              config.(ContextfulS3.rest_port)
              ContextfulS3.QueryInputSchema 50) = Returned queries
    /\ embedded_with o (fun row => embed (this.query row)) queries asked
    /\ Ev (index_query index asked 3) ∈ trace o (ContextfulS3.run config)
    /\ Forall (looks_up index asked 3) (trace o (ContextfulS3.run config))
    /\ o _ (index_query index asked 3) = Returned nearest.

(** The run of [p] returns, and a lookup of the run answers the row [row]
    under the identifier [id]. *)
Definition looked_up (o : Oracle) (p : Prog unit) (id : Pointer)
    (row : QueryRow * Embedding * list string) : Prop :=
  outcome o p = Returned tt
  /\ exists index asked k nearest,
       Ev (index_query index asked k) ∈ trace o p
       /\ o _ (index_query index asked k) = Returned nearest
       /\ nearest !! id = Some row.

(** ** Environments *)

(** Two environments with the same chat model, the same embedder and the
    same bucket. *)
Definition same_services (o1 o2 : Oracle) : Prop :=
  (forall model text locator temperature max_tokens,
     o1 _ (model_apply model text locator temperature max_tokens)
     = o2 _ (model_apply model text locator temperature max_tokens))
  /\ (forall embedder text locator,
        o1 _ (embedder_apply embedder text locator)
        = o2 _ (embedder_apply embedder text locator))
  /\ (forall path settings format schema mode,
        o1 _ (s3_read path settings format schema mode)
        = o2 _ (s3_read path settings format schema mode)).

(** ** A sample environment *)

Definition demo_documents : Table DocumentRow :=
  <[ 1%N := {| this.doc := "Pathway reads Kafka topics." |} ]>
  (<[ 2%N := {| this.doc := "Tables are keyed by pointers." |} ]> ∅).

Definition demo_queries : Table QueryRow :=
  <[ 3%N := {| this.query := "How to connect to Kafka in Pathway?";
               this.user := "alice" |} ]>
  (<[ 5%N := {| this.query := "How to connect to Kafka in Pathway?";
                this.user := "bob" |} ]>
  (<[ 8%N := {| this.query := "What is a table?"; this.user := "alice" |} ]> ∅)).

(** The first [k] documents of the index, whatever the query. *)
Definition demo_nn (index : KNNIndex) (q : Embedding) (k : Z) : list string :=
  match index with
  | KNNIndex_new data _ =>
      take (Z.to_nat k) ((fun row => this.doc row.2.1) <$> map_to_list data)
  end.

(** Every service answers; [stop] names a chat input on which the model
    raises. *)
Definition demo_oracle (stop : option string) : Oracle := fun T c =>
  match c in Call T return Outcome T with
  | s3_read _ _ _ _ _ => Returned demo_documents
  | rest_connector _ _ _ _ => Returned demo_queries
  | embedder_apply _ text _ =>
      Returned [if decide (text = "What is a table?") then 0.25%float
                else 1.5%float]
  | model_apply _ text _ _ _ =>
      if decide (stop = Some text) then Raised "RateLimitError"
      else Returned ("echo: " ++ text)%string
  | index_query index queries k =>
      Returned ((fun row => (row, demo_nn index row.2 k)) <$> queries)
  | response_writer _ => Returned tt
  | pw_run => Returned tt
  end.

Definition demo_config : ContextfulS3.Config := {|
  ContextfulS3.api_key := "sk-demo";
  ContextfulS3.embedder_locator := "text-embedding-ada-002";
  ContextfulS3.embedding_dimension := 1536;
  ContextfulS3.rest_host := "0.0.0.0";
  ContextfulS3.rest_port := 8080;
  ContextfulS3.model_locator := "gpt-3.5-turbo";
  ContextfulS3.temperature := 0.0;
  ContextfulS3.max_tokens := 50
|}.

(** A configuration whose dimension is that of the sample vectors. *)
Definition sample_config : ContextfulS3.Config := {|
  ContextfulS3.api_key := "sk-demo";
  ContextfulS3.embedder_locator := "text-embedding-ada-002";
  ContextfulS3.embedding_dimension := 1;
  ContextfulS3.rest_host := "0.0.0.0";
  ContextfulS3.rest_port := 8080;
  ContextfulS3.model_locator := "gpt-3.5-turbo";
  ContextfulS3.temperature := 0.0;
  ContextfulS3.max_tokens := 50
|}.

(** The sample documents and queries with the sample vectors. *)
Definition sample_enriched_documents : Table (DocumentRow * Embedding) :=
  (fun row => (row, [1.5%float])) <$> demo_documents.

Definition sample_asked : Table (QueryRow * Embedding) :=
  (fun row =>
     (row, [if decide (this.query row = "What is a table?") then 0.25%float
            else 1.5%float])) <$> demo_queries.

(** The sample environment with an index that finds no neighbour for the
    query "What is a table?" and answers no row for it. *)
Definition sparse_index_oracle : Oracle := fun T c =>
  match c in Call T return Outcome T with
  | index_query index queries k =>
      Returned
        ((fun row => (row, demo_nn index row.2 k))
           <$> filter (fun ir => this.query ir.2.1 <> "What is a table?")
                 queries)
  | c' => demo_oracle None _ c'
  end.

(** The sample environment with an index whose [result] for a row is the
    [user] of the row. *)
Definition user_index_oracle : Oracle := fun T c =>
  match c in Call T return Outcome T with
  | index_query index queries k =>
      Returned ((fun row => (row, [this.user row.1])) <$> queries)
  | c' => demo_oracle None _ c'
  end.

(** * Running programs *)

Section Exec.

Context (o : Oracle).

Lemma exec_bind {A B} (p : Prog A) (f : A -> Prog B) :
  exec o (p ≫= f) =
    match exec o p with
    | (tr, Returned a) => (tr ++ (exec o (f a)).1, (exec o (f a)).2)
    | (tr, Raised e) => (tr, Raised e)
    end.
Proof.
  unfold mbind, Prog_bind.
  induction p as [a | T c k IH]; simpl.
  - by destruct (exec o (f a)).
  - destruct (o T c) as [x | e]; [| done].
    rewrite IH. by destruct (exec o (k x)) as [tr [a | e]].
Qed.

Lemma outcome_ret {A} (a : A) : outcome o (mret a) = Returned a.
Proof. done. Qed.

Lemma trace_ret {A} (a : A) : trace o (mret a) = [].
Proof. done. Qed.

Lemma outcome_trigger {T} (c : Call T) : outcome o (trigger c) = o T c.
Proof. unfold outcome. simpl. by destruct (o T c). Qed.

Lemma trace_trigger {T} (c : Call T) : trace o (trigger c) = [Ev c].
Proof. unfold trace. simpl. by destruct (o T c). Qed.

Lemma outcome_bind {A B} (p : Prog A) (f : A -> Prog B) :
  outcome o (p ≫= f) =
    match outcome o p with
    | Returned a => outcome o (f a)
    | Raised e => Raised e
    end.
Proof.
  unfold outcome. rewrite exec_bind. by destruct (exec o p) as [tr [a | e]].
Qed.

Lemma trace_bind {A B} (p : Prog A) (f : A -> Prog B) :
  trace o (p ≫= f) =
    trace o p ++ match outcome o p with
                 | Returned a => trace o (f a)
                 | Raised _ => []
                 end.
Proof.
  unfold trace, outcome. rewrite exec_bind.
  destruct (exec o p) as [tr [a | e]]; simpl; [done | by rewrite app_nil_r].
Qed.

Lemma outcome_bind_returned {A B} (p : Prog A) (f : A -> Prog B) b :
  outcome o (p ≫= f) = Returned b ->
  exists a, outcome o p = Returned a /\ outcome o (f a) = Returned b.
Proof.
  rewrite outcome_bind. destruct (outcome o p) as [a | e]; [eauto | done].
Qed.

Lemma trace_bind_returned {A B} (p : Prog A) (f : A -> Prog B) a :
  outcome o p = Returned a -> trace o (p ≫= f) = trace o p ++ trace o (f a).
Proof. intros Hp. by rewrite trace_bind, Hp. Qed.

Lemma trace_bind_Forall {A B} (P : Event -> Prop) (p : Prog A) (f : A -> Prog B) :
  Forall P (trace o p) ->
  (forall a, outcome o p = Returned a -> Forall P (trace o (f a))) ->
  Forall P (trace o (p ≫= f)).
Proof.
  intros Hp Hf. rewrite trace_bind. apply Forall_app. split; [done |].
  destruct (outcome o p); [by apply Hf | constructor].
Qed.

(** *** [mapM] *)

Lemma outcome_mapM_returned {A B} (f : A -> Prog B) l bs :
  outcome o (mapM f l) = Returned bs ->
  Forall2 (fun a b => outcome o (f a) = Returned b) l bs.
Proof.
  revert bs. induction l as [| a l IH]; intros bs; simpl.
  - rewrite outcome_ret. intros [= <-]. constructor.
  - intros H.
    apply outcome_bind_returned in H as (b & Hb & H).
    apply outcome_bind_returned in H as (bs' & Hbs & H).
    rewrite outcome_ret in H. injection H as <-.
    constructor; [done | by apply IH].
Qed.

Lemma outcome_mapM_total {A B} (f : A -> Prog B) l :
  Forall (fun a => exists b, outcome o (f a) = Returned b) l ->
  exists bs, outcome o (mapM f l) = Returned bs.
Proof.
  induction 1 as [| a l [b Hb] _ [bs IH]]; simpl.
  - by exists [].
  - exists (b :: bs). by rewrite outcome_bind, Hb, outcome_bind, IH.
Qed.

Lemma trace_mapM_returned {A B} (f : A -> Prog B) l bs :
  outcome o (mapM f l) = Returned bs ->
  trace o (mapM f l) = mjoin ((fun a => trace o (f a)) <$> l).
Proof.
  revert bs. induction l as [| a l IH]; intros bs; simpl; [done |].
  intros H.
  apply outcome_bind_returned in H as (b & Hb & H).
  rewrite (trace_bind_returned _ _ _ Hb). f_equal.
  apply outcome_bind_returned in H as (bs' & Hbs & H).
  rewrite (trace_bind_returned _ _ _ Hbs), trace_ret, app_nil_r.
  by eapply IH.
Qed.

Lemma trace_mapM_Forall {A B} (P : Event -> Prop) (f : A -> Prog B) l :
  Forall (fun a => Forall P (trace o (f a))) l ->
  Forall P (trace o (mapM f l)).
Proof.
  induction 1 as [| a l Ha _ IH]; simpl; [constructor |].
  apply trace_bind_Forall; [done | intros b _].
  apply trace_bind_Forall; [done | intros bs _]. constructor.
Qed.

(** *** [select] *)

Lemma outcome_select_row {A B} (f : Pointer -> A -> Prog B) (ia : Pointer * A) ib :
  outcome o (let '(id, row) := ia in b ← f id row; mret (id, b)) = Returned ib ->
  ib.1 = ia.1 /\ outcome o (f ia.1 ia.2) = Returned ib.2.
Proof.
  destruct ia as [i a]. intros H.
  apply outcome_bind_returned in H as (b & Hb & H).
  rewrite outcome_ret in H. by injection H as <-.
Qed.

Lemma outcome_select_returned {A B} (t : Table A) (f : Pointer -> A -> Prog B) t' :
  outcome o (select t f) = Returned t' ->
  forall i,
    match t !! i with
    | Some a => exists b, outcome o (f i a) = Returned b /\ t' !! i = Some b
    | None => t' !! i = None
    end.
Proof.
  unfold select. intros H i.
  apply outcome_bind_returned in H as (rows & Hrows & H).
  rewrite outcome_ret in H. injection H as <-.
  apply outcome_mapM_returned in Hrows.
  assert (Hrel : Forall2 (fun ia ib =>
            ib.1 = ia.1 /\ outcome o (f ia.1 ia.2) = Returned ib.2)
            (map_to_list t) rows).
  { eapply Forall2_impl; [exact Hrows |].
    intros ia ib. apply outcome_select_row. }
  assert (Hkeys : rows.*1 = (map_to_list t).*1).
  { clear Hrows. induction Hrel as [| ia ib l l' [Hk _] _ IH]; csimpl; [done |].
    by rewrite Hk, IH. }
  assert (Hnodup : NoDup rows.*1).
  { rewrite Hkeys. apply NoDup_fst_map_to_list. }
  destruct (t !! i) as [a |] eqn:Hi.
  - apply elem_of_map_to_list in Hi.
    apply list_elem_of_lookup in Hi as [n Hn].
    destruct (Forall2_lookup_l _ _ _ _ _ Hrel Hn) as ([i' b] & Hn' & Hk & Hb).
    simpl in Hk, Hb. subst i'. exists b. split; [done |].
    apply elem_of_list_to_map_1; [done |].
    by eapply list_elem_of_lookup_2.
  - apply not_elem_of_list_to_map_1. rewrite Hkeys.
    intros Hin. apply list_elem_of_fmap in Hin as ([i' a] & -> & Hin).
    apply elem_of_map_to_list in Hin. simpl in Hi. congruence.
Qed.

Lemma dom_select_returned {A B} (t : Table A) (f : Pointer -> A -> Prog B) t' :
  outcome o (select t f) = Returned t' -> dom t' = dom t.
Proof.
  intros H. apply set_eq. intros i. rewrite !elem_of_dom.
  generalize (outcome_select_returned _ _ _ H i).
  destruct (t !! i) as [a |].
  - intros (b & _ & ->). by split; eauto.
  - intros ->. by split; intros [? ?].
Qed.

Lemma outcome_select_total {A B} (t : Table A) (f : Pointer -> A -> Prog B) :
  (forall i a, t !! i = Some a -> exists b, outcome o (f i a) = Returned b) ->
  exists t', outcome o (select t f) = Returned t'.
Proof.
  intros Hf. unfold select.
  destruct (outcome_mapM_total
              (fun '(id, row) => b ← f id row; mret (id, b)) (map_to_list t))
    as [rows Hrows].
  { apply Forall_forall. intros [i a] Hin%elem_of_map_to_list.
    destruct (Hf i a Hin) as [b Hb]. exists (i, b).
    by rewrite outcome_bind, Hb. }
  exists (list_to_map rows). by rewrite outcome_bind, Hrows.
Qed.

Lemma trace_select_row {A B} (f : Pointer -> A -> Prog B) (ia : Pointer * A) :
  trace o (let '(id, row) := ia in b ← f id row; mret (id, b))
  = trace o (f ia.1 ia.2).
Proof.
  destruct ia as [i a]. rewrite trace_bind. simpl.
  destruct (outcome o (f i a)); by rewrite ?trace_ret, app_nil_r.
Qed.

Lemma trace_select_returned {A B} (t : Table A) (f : Pointer -> A -> Prog B) t' :
  outcome o (select t f) = Returned t' ->
  trace o (select t f)
  = mjoin ((fun ia => trace o (f ia.1 ia.2)) <$> map_to_list t).
Proof.
  unfold select. intros H.
  apply outcome_bind_returned in H as (rows & Hrows & _).
  rewrite (trace_bind_returned _ _ _ Hrows), trace_ret, app_nil_r.
  rewrite (trace_mapM_returned _ _ _ Hrows). f_equal.
  apply list_fmap_ext. intros _ ia _. apply trace_select_row.
Qed.

Lemma trace_select_Forall {A B} (P : Event -> Prop) (t : Table A)
    (f : Pointer -> A -> Prog B) :
  (forall i a, t !! i = Some a -> Forall P (trace o (f i a))) ->
  Forall P (trace o (select t f)).
Proof.
  intros Hf. unfold select.
  apply trace_bind_Forall; [| intros; constructor].
  apply trace_mapM_Forall, Forall_forall.
  intros [i a] Hin%elem_of_map_to_list.
  rewrite (trace_select_row f (i, a)). by apply Hf.
Qed.

(** *** [select] of a value, and [+] *)

Lemma outcome_select_pure {A B} (t : Table A) (g : Pointer -> A -> B) t' :
  outcome o (select t (fun id row => mret (g id row))) = Returned t' ->
  forall i, t' !! i = g i <$> t !! i.
Proof.
  intros H i. generalize (outcome_select_returned _ _ _ H i).
  destruct (t !! i) as [a |]; [| done].
  intros (b & Hb & ->). rewrite outcome_ret in Hb. by injection Hb as <-.
Qed.

Lemma trace_select_pure {A B} (t : Table A) (g : Pointer -> A -> B) :
  trace o (select t (fun id row => mret (g id row))) = [].
Proof.
  assert (H : Forall (fun _ => False)
                (trace o (select t (fun id row => mret (g id row))))).
  { apply trace_select_Forall. intros i a _. rewrite trace_ret. constructor. }
  by destruct H.
Qed.

Lemma dom_add_select {A B} (t : Table A) (f : Pointer -> A -> Prog B) t' :
  outcome o (select t f) = Returned t' -> dom (t + t')%T = dom t.
Proof.
  intros H. unfold pw.add. rewrite dom_map_zip_with_L.
  by rewrite (dom_select_returned _ _ _ H), (idemp_L (∩)).
Qed.

(** *** Rows of [responses] *)

Lemma outcome_response_row model text locator temperature max_tokens id b :
  outcome o (r ← trigger (model_apply model text locator temperature max_tokens);
             mret [("query_id", VPointer id); ("result", VStr r)]) = Returned b ->
  exists r, o _ (model_apply model text locator temperature max_tokens) = Returned r
            /\ b = [("query_id", VPointer id); ("result", VStr r)].
Proof.
  intros H. apply outcome_bind_returned in H as (r & Hr & H).
  rewrite outcome_trigger in Hr. rewrite outcome_ret in H.
  injection H as <-. eauto.
Qed.

Lemma trace_response_row model text locator temperature max_tokens id :
  trace o (r ← trigger (model_apply model text locator temperature max_tokens);
           mret [("query_id", VPointer id); ("result", VStr r)])
  = [Ev (model_apply model text locator temperature max_tokens)].
Proof.
  rewrite trace_bind, trace_trigger, outcome_trigger.
  by destruct (o _ _).
Qed.

End Exec.

(** *** Two environments *)

Lemma select_agree {A B} o1 o2 (t : Table A) (f : Pointer -> A -> Prog B) t1 t2 :
  (forall i a, t !! i = Some a -> outcome o1 (f i a) = outcome o2 (f i a)) ->
  outcome o1 (select t f) = Returned t1 ->
  outcome o2 (select t f) = Returned t2 ->
  t1 = t2.
Proof.
  intros Hf H1 H2. apply map_eq. intros i.
  generalize (outcome_select_returned o1 _ _ _ H1 i)
             (outcome_select_returned o2 _ _ _ H2 i) (Hf i).
  destruct (t !! i) as [a |]; [| congruence].
  intros (b1 & Hb1 & ->) (b2 & Hb2 & ->) Ha.
  rewrite (Ha a eq_refl), Hb2 in Hb1. by injection Hb1 as <-.
Qed.

(** *** The tables handed to the response writer *)

Lemma written_app tr1 tr2 : written (tr1 ++ tr2) = written tr1 ++ written tr2.
Proof. unfold written. by rewrite flat_map_app. Qed.

Lemma written_nil tr :
  Forall (fun ev => written [ev] = []) tr -> written tr = [].
Proof.
  induction 1 as [| ev tr Hev _ IH]; [done |].
  change (ev :: tr) with ([ev] ++ tr). by rewrite written_app, Hev, IH.
Qed.

(** *** Calls and values of a [select] *)

Lemma trace_select_trigger {A T} o (t : Table A) (c : Pointer -> A -> Call T) t' :
  outcome o (select t (fun id row => trigger (c id row))) = Returned t' ->
  trace o (select t (fun id row => trigger (c id row)))
  = (fun ia : Pointer * A => Ev (c ia.1 ia.2)) <$> map_to_list t.
Proof.
  intros H. rewrite (trace_select_returned o _ _ _ H).
  induction (map_to_list t) as [| ia l IH]; [done |].
  csimpl. by rewrite IH, trace_trigger.
Qed.

Lemma add_select_lookup {A B} o (t : Table A) (f : Pointer -> A -> Prog B) t' :
  outcome o (select t f) = Returned t' ->
  forall i,
    match t !! i with
    | Some a =>
        exists b, outcome o (f i a) = Returned b /\ (t + t')%T !! i = Some (a, b)
    | None => (t + t')%T !! i = None
    end.
Proof.
  intros H i. generalize (outcome_select_returned o _ _ _ H i).
  unfold pw.add. rewrite map_lookup_zip_with.
  destruct (t !! i) as [a |]; simpl; [| done].
  intros (b & Hb & ->). eauto.
Qed.

Lemma trace_select_respond o model locator temperature max_tokens
    (t : Table string) t' :
  let respond := fun (id : Pointer) (row : string) =>
    r ← trigger (model_apply model row locator temperature max_tokens);
    mret [("query_id", VPointer id); ("result", VStr r)] in
  outcome o (select t respond) = Returned t' ->
  trace o (select t respond)
  = (fun ip : Pointer * string =>
       Ev (model_apply model ip.2 locator temperature max_tokens))
    <$> map_to_list t.
Proof.
  intros respond H. rewrite (trace_select_returned o _ _ _ H).
  induction (map_to_list t) as [| ip l IH]; [done |].
  csimpl. rewrite IH. unfold respond at 1. by rewrite trace_response_row.
Qed.

Lemma select_pure_fmap {A B} o (t : Table A) (g : A -> B) t' :
  outcome o (select t (fun _ row => mret (g row))) = Returned t' ->
  t' = g <$> t.
Proof.
  intros H. apply map_eq. intros i.
  by rewrite (outcome_select_pure o t (fun _ => g) t' H i), lookup_fmap.
Qed.

(** * The contextless pipeline, step by step *)

Section Contextless.

Context (o : Oracle) (a : Contextless.Args).

Let model := OpenAIChatGPTModel_new a.(Contextless.api_key).

Let respond : Pointer -> QueryRow -> Prog Row := fun id row =>
  r ← trigger (model_apply model (this.query row) a.(Contextless.model_locator)
                 a.(Contextless.temperature) a.(Contextless.max_tokens));
  mret [("query_id", VPointer id); ("result", VStr r)].

Let listen : Call (Table QueryRow) :=
  rest_connector a.(Contextless.host) a.(Contextless.port)
    Contextless.QueryInputSchema 50.

Lemma contextless_returned :
  outcome o (Contextless.run a) = Returned tt ->
  exists queries responses,
    o _ listen = Returned queries
    /\ outcome o (select queries respond) = Returned responses
    /\ o _ (response_writer responses) = Returned tt
    /\ o _ pw_run = Returned tt
    /\ trace o (Contextless.run a)
       = Ev listen :: trace o (select queries respond)
           ++ [Ev (response_writer responses); Ev pw_run].
Proof.
  unfold Contextless.run. intros H.
  apply outcome_bind_returned in H as (queries & Hq & H).
  rewrite (trace_bind_returned _ _ _ _ Hq). cbv beta zeta in H |- *.
  apply outcome_bind_returned in H as (responses & Hr & H).
  rewrite (trace_bind_returned _ _ _ _ Hr).
  apply outcome_bind_returned in H as ([] & Hw & H).
  rewrite (trace_bind_returned _ _ _ _ Hw).
  exists queries, responses.
  rewrite outcome_trigger in Hq, Hw, H. rewrite !trace_trigger.
  split_and!; done.
Qed.

Lemma contextless_rows queries responses :
  outcome o (select queries respond) = Returned responses ->
  forall id,
    match queries !! id with
    | Some row =>
        exists r,
          o _ (model_apply model (this.query row) a.(Contextless.model_locator)
                 a.(Contextless.temperature) a.(Contextless.max_tokens))
          = Returned r
          /\ responses !! id = Some [("query_id", VPointer id); ("result", VStr r)]
    | None => responses !! id = None
    end.
Proof.
  intros H id. generalize (outcome_select_returned o _ _ _ H id).
  destruct (queries !! id) as [row |]; [| done].
  intros (b & Hb & ->). apply outcome_response_row in Hb as (r & Hr & ->).
  eauto.
Qed.

Lemma contextless_calls queries responses :
  outcome o (select queries respond) = Returned responses ->
  trace o (select queries respond)
  = (fun ir : Pointer * QueryRow =>
       Ev (model_apply model (this.query ir.2) a.(Contextless.model_locator)
             a.(Contextless.temperature) a.(Contextless.max_tokens)))
    <$> map_to_list queries.
Proof.
  intros H. rewrite (trace_select_returned o _ _ _ H).
  induction (map_to_list queries) as [| ir l IH]; [done |].
  csimpl. rewrite IH. unfold respond at 1. by rewrite trace_response_row.
Qed.

Lemma contextless_written queries responses :
  written (Ev listen :: trace o (select queries respond)
             ++ [Ev (response_writer responses); Ev pw_run])
  = [responses].
Proof.
  change (Ev listen :: ?l) with ([Ev listen] ++ l).
  rewrite !written_app, (written_nil (trace o (select queries respond))); [done |].
  apply trace_select_Forall. intros id row _.
  unfold respond. rewrite trace_response_row. by constructor.
Qed.

End Contextless.

(** * The context-aware pipeline, step by step *)

Section ContextfulS3.

Context (o : Oracle) (config : ContextfulS3.Config).

Let embedder := OpenAIEmbeddingModel_new config.(ContextfulS3.api_key).
Let model := OpenAIChatGPTModel_new config.(ContextfulS3.api_key).

Let read : Call (Table DocumentRow) :=
  s3_read "llm_demo/data/" (AwsS3Settings_new "pathway-examples" "eu-central-1")
    "json" ContextfulS3.DocumentInputSchema "streaming".

Let listen : Call (Table QueryRow) :=
  rest_connector config.(ContextfulS3.rest_host) config.(ContextfulS3.rest_port)
    ContextfulS3.QueryInputSchema 50.

Let embed_doc : Pointer -> DocumentRow -> Prog Embedding := fun _ row =>
  trigger (embedder_apply embedder (this.doc row)
             config.(ContextfulS3.embedder_locator)).

Let embed_query : Pointer -> QueryRow -> Prog Embedding := fun _ row =>
  trigger (embedder_apply embedder (this.query row)
             config.(ContextfulS3.embedder_locator)).

Let context : Pointer -> QueryRow * Embedding * list string
              -> Prog (string * list string) := fun _ row =>
  mret (this.query row.1.1, row.2).

Let prompt_of : Pointer -> string * list string -> Prog string := fun _ row =>
  mret (ContextfulS3.build_prompt row.2 row.1).

Let respond : Pointer -> string -> Prog Row := fun id row =>
  r ← trigger (model_apply model row config.(ContextfulS3.model_locator)
                 config.(ContextfulS3.temperature)
                 config.(ContextfulS3.max_tokens));
  mret [("query_id", VPointer id); ("result", VStr r)].

Lemma contextful_returned :
  outcome o (ContextfulS3.run config) = Returned tt ->
  exists documents ddata queries qdata nearest query_context prompt responses,
    let index :=
      KNNIndex_new (documents + ddata)%T
        config.(ContextfulS3.embedding_dimension) in
    o _ read = Returned documents
    /\ outcome o (select documents embed_doc) = Returned ddata
    /\ o _ listen = Returned queries
    /\ outcome o (select queries embed_query) = Returned qdata
    /\ o _ (index_query index (queries + qdata)%T 3) = Returned nearest
    /\ outcome o (select nearest context) = Returned query_context
    /\ outcome o (select query_context prompt_of) = Returned prompt
    /\ outcome o (select prompt respond) = Returned responses
    /\ o _ (response_writer responses) = Returned tt
    /\ o _ pw_run = Returned tt
    /\ trace o (ContextfulS3.run config)
       = Ev read :: trace o (select documents embed_doc)
           ++ Ev listen :: trace o (select queries embed_query)
           ++ Ev (index_query index (queries + qdata)%T 3)
           :: trace o (select prompt respond)
           ++ [Ev (response_writer responses); Ev pw_run].
Proof.
  unfold ContextfulS3.run. intros H.
  apply outcome_bind_returned in H as (documents & Hd & H).
  rewrite (trace_bind_returned _ _ _ _ Hd). cbv beta zeta in H |- *.
  apply outcome_bind_returned in H as (ddata & Hdd & H).
  rewrite (trace_bind_returned _ _ _ _ Hdd). cbv beta zeta in H |- *.
  apply outcome_bind_returned in H as (queries & Hq & H).
  rewrite (trace_bind_returned _ _ _ _ Hq). cbv beta zeta in H |- *.
  apply outcome_bind_returned in H as (qdata & Hqd & H).
  rewrite (trace_bind_returned _ _ _ _ Hqd). cbv beta zeta in H |- *.
  apply outcome_bind_returned in H as (nearest & Hn & H).
  rewrite (trace_bind_returned _ _ _ _ Hn). cbv beta zeta in H |- *.
  apply outcome_bind_returned in H as (query_context & Hc & H).
  rewrite (trace_bind_returned _ _ _ _ Hc). cbv beta zeta in H |- *.
  apply outcome_bind_returned in H as (prompt & Hp & H).
  rewrite (trace_bind_returned _ _ _ _ Hp). cbv beta zeta in H |- *.
  apply outcome_bind_returned in H as (responses & Hr & H).
  rewrite (trace_bind_returned _ _ _ _ Hr).
  apply outcome_bind_returned in H as ([] & Hw & H).
  rewrite (trace_bind_returned _ _ _ _ Hw).
  exists documents, ddata, queries, qdata, nearest, query_context, prompt,
    responses.
  rewrite outcome_trigger in Hd, Hq, Hn, Hw, H. rewrite !trace_trigger.
  rewrite !(trace_select_pure o).
  split_and!; done.
Qed.

Lemma contextful_rows nearest query_context prompt responses :
  outcome o (select nearest context) = Returned query_context ->
  outcome o (select query_context prompt_of) = Returned prompt ->
  outcome o (select prompt respond) = Returned responses ->
  forall id,
    match nearest !! id with
    | Some row =>
        exists r,
          o _ (model_apply model
                 (ContextfulS3.build_prompt row.2 (this.query row.1.1))
                 config.(ContextfulS3.model_locator)
                 config.(ContextfulS3.temperature)
                 config.(ContextfulS3.max_tokens))
          = Returned r
          /\ responses !! id = Some [("query_id", VPointer id); ("result", VStr r)]
    | None => responses !! id = None
    end.
Proof.
  intros Hc Hp Hr id.
  pose proof (outcome_select_pure o _ _ _ Hc id) as Hc'.
  pose proof (outcome_select_pure o _ _ _ Hp id) as Hp'.
  generalize (outcome_select_returned o _ _ _ Hr id).
  rewrite Hp', Hc'. destruct (nearest !! id) as [row |]; simpl; [| done].
  intros (b & Hb & ->). apply outcome_response_row in Hb as (r & Hr' & ->).
  eauto.
Qed.

Lemma contextful_embedded queries qdata :
  outcome o (select queries embed_query) = Returned qdata ->
  forall id,
    match queries !! id with
    | Some row =>
        exists e,
          o _ (embedder_apply embedder (this.query row)
                 config.(ContextfulS3.embedder_locator)) = Returned e
          /\ (queries + qdata)%T !! id = Some (row, e)
    | None => (queries + qdata)%T !! id = None
    end.
Proof.
  intros H id. generalize (outcome_select_returned o _ _ _ H id).
  unfold pw.add. rewrite map_lookup_zip_with.
  destruct (queries !! id) as [row |]; simpl; [| done].
  intros (e & He & ->). unfold embed_query in He.
  rewrite outcome_trigger in He. eauto.
Qed.

Lemma contextful_written documents queries qdata lookup prompt responses :
  written (Ev read :: trace o (select documents embed_doc)
             ++ Ev listen :: trace o (select queries embed_query)
             ++ Ev (index_query lookup (queries + qdata)%T 3)
             :: trace o (select prompt respond)
             ++ [Ev (response_writer responses); Ev pw_run])
  = [responses].
Proof.
  repeat match goal with
         | |- context [?ev :: ?l ++ ?l'] =>
             change (ev :: l ++ l') with ([ev] ++ l ++ l')
         end.
  rewrite !written_app.
  rewrite (written_nil (trace o (select documents embed_doc))),
    (written_nil (trace o (select queries embed_query))),
    (written_nil (trace o (select prompt respond))); [done | | |].
  - apply trace_select_Forall. intros id row _.
    unfold respond. rewrite trace_response_row. by constructor.
  - apply trace_select_Forall. intros id row _.
    unfold embed_query. rewrite trace_trigger. by constructor.
  - apply trace_select_Forall. intros id row _.
    unfold embed_doc. rewrite trace_trigger. by constructor.
Qed.

Lemma contextful_only_lookup documents queries qdata index prompt responses :
  Forall (looks_up index (queries + qdata)%T 3)
    (Ev read :: trace o (select documents embed_doc)
       ++ Ev listen :: trace o (select queries embed_query)
       ++ Ev (index_query index (queries + qdata)%T 3)
       :: trace o (select prompt respond)
       ++ [Ev (response_writer responses); Ev pw_run]).
Proof.
  apply Forall_cons_2; [done |]. apply Forall_app_2.
  { apply trace_select_Forall. intros i row _.
    unfold embed_doc. rewrite trace_trigger. by apply Forall_singleton. }
  apply Forall_cons_2; [done |]. apply Forall_app_2.
  { apply trace_select_Forall. intros i row _.
    unfold embed_query. rewrite trace_trigger. by apply Forall_singleton. }
  apply Forall_cons_2; [done |]. apply Forall_app_2.
  { apply trace_select_Forall. intros i row _.
    unfold respond. rewrite trace_response_row. by apply Forall_singleton. }
  by repeat constructor.
Qed.

Lemma contextful_lookup_of_run documents ddata queries qdata nearest prompt
    responses :
  let index :=
    KNNIndex_new (documents + ddata)%T
      config.(ContextfulS3.embedding_dimension) in
  o _ read = Returned documents ->
  outcome o (select documents embed_doc) = Returned ddata ->
  o _ listen = Returned queries ->
  outcome o (select queries embed_query) = Returned qdata ->
  o _ (index_query index (queries + qdata)%T 3) = Returned nearest ->
  trace o (ContextfulS3.run config)
  = Ev read :: trace o (select documents embed_doc)
      ++ Ev listen :: trace o (select queries embed_query)
      ++ Ev (index_query index (queries + qdata)%T 3)
      :: trace o (select prompt respond)
      ++ [Ev (response_writer responses); Ev pw_run] ->
  lookup_of_run o config queries nearest.
Proof.
  intros index Hd Hdd Hq Hqd Hn Htr.
  exists documents, (documents + ddata)%T, (queries + qdata)%T.
  cbv zeta. fold index. rewrite Htr. split_and!; try done.
  - intros id. generalize (add_select_lookup o _ _ _ Hdd id).
    destruct (documents !! id) as [row |]; [| done].
    intros (e & He & Hz). unfold embed_doc in He.
    rewrite outcome_trigger in He. eauto.
  - intros id. generalize (add_select_lookup o _ _ _ Hqd id).
    destruct (queries !! id) as [row |]; [| done].
    intros (e & He & Hz). unfold embed_query in He.
    rewrite outcome_trigger in He. eauto.
  - rewrite elem_of_cons, elem_of_app, elem_of_cons, elem_of_app, elem_of_cons.
    tauto.
  - apply contextful_only_lookup.
Qed.

End ContextfulS3.

(** Every call site of a program, one goal each. *)
Ltac call_sites :=
  repeat first
    [ apply trace_select_Forall; intros ? ? _
    | apply trace_bind_Forall; [| intros ? _; cbv beta zeta]
    | rewrite trace_trigger; apply Forall_singleton
    | rewrite trace_ret; apply Forall_nil_2 ].

(** * The record identifier *)




(** * The contextless pipeline *)

(** C2.  In the contextless pipeline, a run that returns gives every query
    row of the REST connector the response whose [result] is the reply of the
    chat model wrapper to the row's [query] text itself, and gives no other
    response; apart from the connector, the response writer and [pw.run()]
    the run issues one model call per query row, on the [query] text of the
    row, and no other call. *)
Theorem contextless_result_is_the_model_reply :
  forall o a,
    outcome o (Contextless.run a) = Returned tt ->
    let model := OpenAIChatGPTModel_new a.(Contextless.api_key) in
    let ask (text : string) :=
      model_apply model text a.(Contextless.model_locator)
        a.(Contextless.temperature) a.(Contextless.max_tokens) in
    let listen :=
      rest_connector a.(Contextless.host) a.(Contextless.port)
        Contextless.QueryInputSchema 50 in
    exists queries responses,
      o _ listen = Returned queries
      /\ written (trace o (Contextless.run a)) = [responses]
      /\ (forall id,
            match queries !! id with
            | Some row =>
                exists r,
                  o _ (ask (this.query row)) = Returned r
                  /\ responses !! id
                     = Some [("query_id", VPointer id); ("result", VStr r)]
            | None => responses !! id = None
            end)
      /\ trace o (Contextless.run a)
         ≡ₚ Ev listen :: Ev (response_writer responses) :: Ev pw_run
            :: ((fun ir : Pointer * QueryRow => Ev (ask (this.query ir.2)))
                  <$> map_to_list queries).
Proof.
  intros o a H model ask listen.
  destruct (contextless_returned o a H)
    as (queries & responses & Hq & Hr & _ & _ & Htr).
  exists queries, responses. split_and!; [done | | |].
  - rewrite Htr. apply contextless_written.
  - apply (contextless_rows o a _ _ Hr).
  - rewrite Htr, (contextless_calls o a _ _ Hr).
    apply perm_skip. apply Permutation_app_comm.
Qed.

Lemma contextless_result_is_the_model_reply_witness :
  let o := demo_oracle None in
  let ask (text : string) :=
    model_apply (OpenAIChatGPTModel_new "") text "gpt2" 0.8 60 in
  let listen := rest_connector "0.0.0.0" 8080 Contextless.QueryInputSchema 50 in
  exists queries responses,
    o _ listen = Returned queries
    /\ written (trace o Contextless.main) = [responses]
    /\ (forall id,
          match queries !! id with
          | Some row =>
              exists r,
                o _ (ask (this.query row)) = Returned r
                /\ responses !! id
                   = Some [("query_id", VPointer id); ("result", VStr r)]
          | None => responses !! id = None
          end)
    /\ trace o Contextless.main
       ≡ₚ Ev listen :: Ev (response_writer responses) :: Ev pw_run
          :: ((fun ir : Pointer * QueryRow => Ev (ask (this.query ir.2)))
                <$> map_to_list queries).
Proof.
  apply (contextless_result_is_the_model_reply (demo_oracle None)
           Contextless.defaults).
  vm_compute. reflexivity.
Defined.

(** * The response record *)

(** C5.  In both pipelines a run that returns hands the response writer one
    table, with a row for every query that is answered: every query row of
    the REST connector in the contextless pipeline, every row that the index
    lookup answers in the context-aware one.  Each of these rows has exactly
    two columns, [query_id], which holds the identifier of the row, and
    [result], which holds a string. *)
Theorem response_is_query_id_and_result :
  (forall o a,
     outcome o (Contextless.run a) = Returned tt ->
     exists queries responses,
       o _ (rest_connector a.(Contextless.host) a.(Contextless.port)
              Contextless.QueryInputSchema 50) = Returned queries
       /\ written (trace o (Contextless.run a)) = [responses]
       /\ dom responses = dom queries
       /\ forall id r, responses !! id = Some r ->
            exists s, r = [("query_id", VPointer id); ("result", VStr s)])
  /\ (forall o config,
        outcome o (ContextfulS3.run config) = Returned tt ->
        exists queries nearest responses,
          lookup_of_run o config queries nearest
          /\ written (trace o (ContextfulS3.run config)) = [responses]
          /\ dom responses = dom nearest
          /\ forall id r, responses !! id = Some r ->
               exists s, r = [("query_id", VPointer id); ("result", VStr s)]).
Proof.
  split.
  - intros o a H.
    destruct (contextless_returned o a H)
      as (queries & responses & Hq & Hr & _ & _ & Htr).
    exists queries, responses. split_and!; [done | | |].
    + rewrite Htr. apply contextless_written.
    + apply (dom_select_returned o _ _ _ Hr).
    + intros id r Hid. generalize (contextless_rows o a _ _ Hr id).
      destruct (queries !! id) as [row |]; [| congruence].
      intros (x & _ & Hx). rewrite Hx in Hid. injection Hid as <-. eauto.
  - intros o config H.
    destruct (contextful_returned o config H)
      as (documents & ddata & queries & qdata & nearest & query_context
          & prompt & responses & Hd & Hdd & Hq & Hqd & Hn & Hc & Hp & Hr
          & _ & _ & Htr).
    exists queries, nearest, responses. split_and!.
    + by eapply contextful_lookup_of_run.
    + rewrite Htr. apply contextful_written.
    + by rewrite (dom_select_returned o _ _ _ Hr),
        (dom_select_returned o _ _ _ Hp), (dom_select_returned o _ _ _ Hc).
    + intros id r Hid. generalize (contextful_rows o config _ _ _ _ Hc Hp Hr id).
      destruct (nearest !! id) as [row |]; [| congruence].
      intros (x & _ & Hx). rewrite Hx in Hid. injection Hid as <-. eauto.
Qed.

Lemma response_is_query_id_and_result_witness :
  (exists queries responses,
     demo_oracle None _ (rest_connector "0.0.0.0" 8080
                           Contextless.QueryInputSchema 50) = Returned queries
     /\ written (trace (demo_oracle None) Contextless.main) = [responses]
     /\ dom responses = dom queries
     /\ forall id r, responses !! id = Some r ->
          exists s, r = [("query_id", VPointer id); ("result", VStr s)])
  /\ (exists queries nearest responses,
        lookup_of_run (demo_oracle None) sample_config queries nearest
        /\ written (trace (demo_oracle None) (ContextfulS3.run sample_config))
           = [responses]
        /\ dom responses = dom nearest
        /\ forall id r, responses !! id = Some r ->
             exists s, r = [("query_id", VPointer id); ("result", VStr s)]).
Proof.
  split.
  - apply (proj1 response_is_query_id_and_result (demo_oracle None)
             Contextless.defaults).
    vm_compute. reflexivity.
  - apply (proj2 response_is_query_id_and_result (demo_oracle None)
             sample_config).
    vm_compute. reflexivity.
Defined.

(** * Schemas and sources *)

(** C3.  The query schema of both pipelines declares the two columns
    [query] and [user], both text, and nothing else; every REST connector
    that a run opens is opened under that schema, and the contextless run
    starts by opening it. *)
Theorem query_schema_is_query_and_user :
  Contextless.QueryInputSchema = [("query", str); ("user", str)]
  /\ ContextfulS3.QueryInputSchema = [("query", str); ("user", str)]
  /\ (forall o a,
        Forall (listens_with [("query", str); ("user", str)])
          (trace o (Contextless.run a))
        /\ exists rest,
             trace o (Contextless.run a)
             = Ev (rest_connector a.(Contextless.host) a.(Contextless.port)
                     [("query", str); ("user", str)] 50) :: rest)
  /\ (forall o config,
        Forall (listens_with [("query", str); ("user", str)])
          (trace o (ContextfulS3.run config))).
Proof.
  split_and!; [done | done | |].
  - intros o a. split.
    + unfold Contextless.run. call_sites; done.
    + unfold Contextless.run. rewrite trace_bind, trace_trigger. by eexists.
  - intros o config. unfold ContextfulS3.run. call_sites; done.
Qed.

(** C4.  The document schema declares the single text column [doc].  The
    context-aware run starts by reading the documents from the S3 bucket
    [pathway-examples] under that schema in the format [json] (JSON Lines),
    and reads documents nowhere else. *)
Theorem documents_are_read_from_s3_as_doc :
  ContextfulS3.DocumentInputSchema = [("doc", str)]
  /\ forall o config,
       exists rest,
         trace o (ContextfulS3.run config)
         = Ev (s3_read "llm_demo/data/"
                 (AwsS3Settings_new "pathway-examples" "eu-central-1")
                 "json" [("doc", str)] "streaming") :: rest
         /\ Forall reads_nothing rest.
Proof.
  split; [done |]. intros o config.
  unfold ContextfulS3.run. rewrite trace_bind, trace_trigger.
  eexists. split; [done |].
  destruct (outcome o (trigger _)) as [documents |]; [| constructor].
  cbv beta zeta. call_sites; done.
Qed.

(** * Parameters of the outbound calls *)

(** C6.  Every chat call of a run carries the configured model identifier,
    temperature and token limit; every embedding call of the context-aware
    run carries the configured embedder identifier, and the contextless run
    issues no embedding call. *)
Theorem outbound_calls_are_configured :
  (forall o a,
     Forall (configured a.(Contextless.model_locator)
               a.(Contextless.temperature) a.(Contextless.max_tokens) None)
       (trace o (Contextless.run a)))
  /\ (forall o config,
        Forall (configured config.(ContextfulS3.model_locator)
                  config.(ContextfulS3.temperature)
                  config.(ContextfulS3.max_tokens)
                  (Some config.(ContextfulS3.embedder_locator)))
          (trace o (ContextfulS3.run config))).
Proof.
  split.
  - intros o a. unfold Contextless.run. call_sites; done.
  - intros o config. unfold ContextfulS3.run. call_sites; done.
Qed.

(** * The prompt *)

(** C8.  [build_prompt] is a function of the documents and the query: its
    value is the text "Given the following documents : ", a line feed, a
    space, the documents joined by line feeds, a space, a line feed, the text
    "answer this query: " and the query.  For no documents the joined part is
    empty. *)
Theorem build_prompt_text :
  let nl := String "010"%char EmptyString in
  forall documents query,
    ContextfulS3.build_prompt documents query
    = (("Given the following documents : " ++ nl ++ " ")
       ++ String.concat nl documents
       ++ (" " ++ nl ++ "answer this query: ") ++ query)%string
    /\ String.concat nl [] = ""
    /\ ContextfulS3.build_prompt [] query
       = ("Given the following documents : " ++ nl ++ " "
          ++ " " ++ nl ++ "answer this query: " ++ query)%string.
Proof.
  intros nl documents query. split_and!; reflexivity.
Qed.

Example build_prompt_two_documents :
  ContextfulS3.build_prompt ["a"; "b"] "q"
  = String.concat (String "010"%char EmptyString)
      ["Given the following documents : "; " a"; "b "; "answer this query: q"].
Proof. reflexivity. Qed.

(** * The user field *)




(** * Retrieval *)

(** C10.  Every index lookup of the context-aware run asks for [k = 3].  A
    run that returns has one lookup: of the query rows of the REST connector
    with their embedded [query], in the index over the rows of the bucket
    with their embedded [doc].  The documents given to [build_prompt] for a
    row that the lookup answers are the [result] of the lookup in that row,
    the prompt so built is what the chat model is asked, and its reply is the
    [result] of the response. *)
Theorem prompt_documents_come_from_the_lookup_with_k_3 :
  (forall o config, Forall (asks_for 3) (trace o (ContextfulS3.run config)))
  /\ (forall o config,
        outcome o (ContextfulS3.run config) = Returned tt ->
        let model := OpenAIChatGPTModel_new config.(ContextfulS3.api_key) in
        exists queries nearest responses,
          lookup_of_run o config queries nearest
          /\ Forall (prompted_from nearest) (trace o (ContextfulS3.run config))
          /\ written (trace o (ContextfulS3.run config)) = [responses]
          /\ forall id,
               match nearest !! id with
               | Some row =>
                   exists r,
                     o _ (model_apply model
                            (ContextfulS3.build_prompt row.2
                               (this.query row.1.1))
                            config.(ContextfulS3.model_locator)
                            config.(ContextfulS3.temperature)
                            config.(ContextfulS3.max_tokens))
                     = Returned r
                     /\ responses !! id
                        = Some [("query_id", VPointer id); ("result", VStr r)]
               | None => responses !! id = None
               end).
Proof.
  split.
  - intros o config. unfold ContextfulS3.run. call_sites; done.
  - intros o config H model.
    destruct (contextful_returned o config H)
      as (documents & ddata & queries & qdata & nearest & query_context
          & prompt & responses & Hd & Hdd & Hq & Hqd & Hn & Hc & Hp & Hr
          & _ & _ & Htr).
    exists queries, nearest, responses. split_and!.
    + by eapply contextful_lookup_of_run.
    + cbv zeta in Htr. rewrite Htr.
      apply Forall_cons_2; [done |]. apply Forall_app_2.
      { apply trace_select_Forall. intros i row _.
        rewrite trace_trigger. by apply Forall_singleton. }
      apply Forall_cons_2; [done |]. apply Forall_app_2.
      { apply trace_select_Forall. intros i row _.
        rewrite trace_trigger. by apply Forall_singleton. }
      apply Forall_cons_2; [done |]. apply Forall_app_2; [| by repeat constructor].
      apply trace_select_Forall. intros i text Hi.
      rewrite trace_response_row. apply Forall_singleton. simpl.
      rewrite (outcome_select_pure o _ _ _ Hp i),
        (outcome_select_pure o _ _ _ Hc i) in Hi.
      destruct (nearest !! i) as [row |] eqn:Hrow; [| done].
      simpl in Hi. injection Hi as <-. by exists i, row.
    + rewrite Htr. apply contextful_written.
    + apply (contextful_rows o config _ _ _ _ Hc Hp Hr).
Qed.

Lemma prompt_documents_come_from_the_lookup_with_k_3_witness :
  let o := demo_oracle None in
  let model := OpenAIChatGPTModel_new "sk-demo" in
  exists queries nearest responses,
    lookup_of_run o sample_config queries nearest
    /\ Forall (prompted_from nearest) (trace o (ContextfulS3.run sample_config))
    /\ written (trace o (ContextfulS3.run sample_config)) = [responses]
    /\ forall id,
         match nearest !! id with
         | Some row =>
             exists r,
               o _ (model_apply model
                      (ContextfulS3.build_prompt row.2 (this.query row.1.1))
                      "gpt-3.5-turbo" 0.0 50)
               = Returned r
               /\ responses !! id
                  = Some [("query_id", VPointer id); ("result", VStr r)]
         | None => responses !! id = None
         end.
Proof.
  apply (proj2 prompt_documents_come_from_the_lookup_with_k_3
           (demo_oracle None) sample_config).
  vm_compute. reflexivity.
Defined.

(** * Further properties of the two scripts *)

(** ** Strings *)

Lemma string_app_assoc (a b c : string) :
  ((a ++ b) ++ c = a ++ b ++ c)%string.
Proof.
  induction a as [| x a IH]; [done |].
  change (String x ((a ++ b) ++ c) = String x (a ++ b ++ c))%string.
  by f_equal.
Qed.

Lemma string_length_app (a b : string) :
  String.length (a ++ b) = (String.length a + String.length b)%nat.
Proof.
  induction a as [| x a IH]; [done |].
  change (S (String.length (a ++ b))
          = S (String.length a + String.length b))%nat.
  by f_equal.
Qed.

Lemma string_app_empty_r (a : string) : (a ++ "")%string = a.
Proof.
  induction a as [| x a IH]; [done |].
  change (String x (a ++ "") = String x a)%string. by f_equal.
Qed.

Lemma concat_cons_cons sep (d d' : string) ds :
  String.concat sep (d :: d' :: ds)
  = (d ++ sep ++ String.concat sep (d' :: ds))%string.
Proof. done. Qed.

Lemma concat_length sep (l : list string) :
  String.length (String.concat sep l)
  = (sum_list (String.length <$> l)
     + (length l - 1) * String.length sep)%nat.
Proof.
  induction l as [| d [| d' ds] IH]; [done | simpl; lia |].
  rewrite concat_cons_cons, !string_length_app, IH. simpl. lia.
Qed.

Lemma concat_occurs sep (l : list string) d :
  d ∈ l -> occurs_in d (String.concat sep l).
Proof.
  induction l as [| d0 [| d' ds] IH].
  - by intros ?%elem_of_nil.
  - intros ->%list_elem_of_singleton. exists "", "".
    by rewrite string_app_empty_r.
  - rewrite concat_cons_cons. intros [-> | Hin]%elem_of_cons.
    + by exists "", (sep ++ String.concat sep (d' :: ds))%string.
    + destruct (IH Hin) as (before & after & ->).
      exists (d0 ++ sep ++ before)%string, after.
      by rewrite !string_app_assoc.
Qed.

(** ** Settings of the calls *)

(** X1.  Every chat call and every embedding call of a run goes through a
    wrapper built from the API key that the run was given: the argument
    [api_key] in the contextless script, [config.api_key] for both wrappers
    in the context-aware one. *)
Theorem wrappers_carry_the_api_key :
  (forall o a,
     Forall (keyed a.(Contextless.api_key)) (trace o (Contextless.run a)))
  /\ (forall o config,
        Forall (keyed config.(ContextfulS3.api_key))
          (trace o (ContextfulS3.run config))).
Proof.
  split.
  - intros o a. unfold Contextless.run. call_sites; done.
  - intros o config. unfold ContextfulS3.run. call_sites; done.
Qed.

(** X2.  Every REST connector of a run is opened on the host and port that
    the run was given, with an autocommit period of 50 ms. *)
Theorem endpoint_is_opened_as_configured :
  (forall o a,
     Forall (listens_on a.(Contextless.host) a.(Contextless.port) 50)
       (trace o (Contextless.run a)))
  /\ (forall o config,
        Forall (listens_on config.(ContextfulS3.rest_host)
                  config.(ContextfulS3.rest_port) 50)
          (trace o (ContextfulS3.run config))).
Proof.
  split.
  - intros o a. unfold Contextless.run. call_sites; done.
  - intros o config. unfold ContextfulS3.run. call_sites; done.
Qed.

(** ** What is sent out and what the index receives *)

(** Every call site of a program with what is known there: the answers of
    the calls before it and the row at hand. *)
Ltac call_sites_in_context :=
  repeat first
    [ apply trace_select_Forall; intros ? ? ?
    | apply trace_bind_Forall; [| intros ? ?; cbv beta zeta]
    | rewrite trace_trigger; apply Forall_singleton
    | rewrite trace_ret; apply Forall_nil_2 ];
  repeat match goal with
         | H : outcome _ (trigger _) = _ |- _ => rewrite outcome_trigger in H
         end.

(** X4.  Whether or not the run returns, the text of every chat call of the
    contextless run is the [query] of a row that the REST connector
    delivered, and the text of every embedding call of the context-aware run
    is the [doc] of a row read from the bucket or the [query] of a row that
    the REST connector delivered; the [user] column is never the text of such
    a call. *)
Theorem only_input_texts_are_sent_out :
  (forall o a,
     Forall (asks_a_query o
               (rest_connector a.(Contextless.host) a.(Contextless.port)
                  Contextless.QueryInputSchema 50))
       (trace o (Contextless.run a)))
  /\ (forall o config,
        Forall (embeds_an_input o
                  (s3_read "llm_demo/data/"
                     (AwsS3Settings_new "pathway-examples" "eu-central-1")
                     "json" ContextfulS3.DocumentInputSchema "streaming")
                  (rest_connector config.(ContextfulS3.rest_host)
                     config.(ContextfulS3.rest_port)
                     ContextfulS3.QueryInputSchema 50))
          (trace o (ContextfulS3.run config))).
Proof.
  split.
  - intros o a. unfold Contextless.run.
    call_sites_in_context; simpl; eauto 10.
  - intros o config. unfold ContextfulS3.run.
    call_sites_in_context; simpl; first [done | left; by eauto 10 | right; by eauto 10].
Qed.

(** X5.  In a context-aware run that returns, the index of the lookup holds
    every document row read from the bucket, paired with the embedder's
    vector for its [doc] text, and no other row, and has the configured
    dimension; the lookup is asked every query row of the REST connector,
    whole, paired with the embedder's vector for its [query] text, and no
    other row. *)
Theorem lookup_gets_the_embedded_documents_and_queries :
  forall o config,
    outcome o (ContextfulS3.run config) = Returned tt ->
    let embed (text : string) :=
      embedder_apply (OpenAIEmbeddingModel_new config.(ContextfulS3.api_key))
        text config.(ContextfulS3.embedder_locator) in
    exists documents queries enriched_documents embedded_queries,
      o _ (s3_read "llm_demo/data/"
             (AwsS3Settings_new "pathway-examples" "eu-central-1")
             "json" ContextfulS3.DocumentInputSchema "streaming")
      = Returned documents
      /\ o _ (rest_connector config.(ContextfulS3.rest_host)
                config.(ContextfulS3.rest_port)
                ContextfulS3.QueryInputSchema 50) = Returned queries
      /\ Ev (index_query
               (KNNIndex_new enriched_documents
                  config.(ContextfulS3.embedding_dimension))
               embedded_queries 3) ∈ trace o (ContextfulS3.run config)
      /\ (forall id,
            match documents !! id with
            | Some row =>
                exists e,
                  o _ (embed (this.doc row)) = Returned e
                  /\ enriched_documents !! id = Some (row, e)
            | None => enriched_documents !! id = None
            end)
      /\ (forall id,
            match queries !! id with
            | Some row =>
                exists e,
                  o _ (embed (this.query row)) = Returned e
                  /\ embedded_queries !! id = Some (row, e)
            | None => embedded_queries !! id = None
            end).
Proof.
  intros o config H embed.
  destruct (contextful_returned o config H)
    as (documents & ddata & queries & qdata & nearest & query_context
        & prompt & responses & Hd & Hdd & Hq & Hqd & Hn & Hc & Hp & Hr
        & _ & _ & Htr).
  cbv zeta in Htr.
  exists documents, queries, (documents + ddata)%T, (queries + qdata)%T.
  split_and!; [done | done | | |].
  - rewrite Htr.
    rewrite elem_of_cons, elem_of_app, elem_of_cons, elem_of_app, elem_of_cons.
    tauto.
  - intros id. generalize (add_select_lookup o _ _ _ Hdd id).
    destruct (documents !! id) as [row |]; [| done].
    intros (e & He & Hz). rewrite outcome_trigger in He. eauto.
  - intros id. generalize (add_select_lookup o _ _ _ Hqd id).
    destruct (queries !! id) as [row |]; [| done].
    intros (e & He & Hz). rewrite outcome_trigger in He. eauto.
Qed.

Lemma lookup_gets_the_embedded_documents_and_queries_witness :
  let o := demo_oracle None in
  let embed (text : string) :=
    embedder_apply (OpenAIEmbeddingModel_new "sk-demo") text
      "text-embedding-ada-002" in
  exists documents queries enriched_documents embedded_queries,
    o _ (s3_read "llm_demo/data/"
           (AwsS3Settings_new "pathway-examples" "eu-central-1")
           "json" ContextfulS3.DocumentInputSchema "streaming")
    = Returned documents
    /\ o _ (rest_connector "0.0.0.0" 8080 ContextfulS3.QueryInputSchema 50)
       = Returned queries
    /\ Ev (index_query (KNNIndex_new enriched_documents 1536)
             embedded_queries 3) ∈ trace o (ContextfulS3.run demo_config)
    /\ (forall id,
          match documents !! id with
          | Some row =>
              exists e,
                o _ (embed (this.doc row)) = Returned e
                /\ enriched_documents !! id = Some (row, e)
          | None => enriched_documents !! id = None
          end)
    /\ (forall id,
          match queries !! id with
          | Some row =>
              exists e,
                o _ (embed (this.query row)) = Returned e
                /\ embedded_queries !! id = Some (row, e)
          | None => embedded_queries !! id = None
          end).
Proof.
  apply (lookup_gets_the_embedded_documents_and_queries (demo_oracle None)
           demo_config).
  vm_compute. reflexivity.
Defined.

(** ** The calls of the context-aware run *)

(** X6.  A context-aware run that returns issues these calls, each as often
    as listed, and no other: the read of the bucket, the REST connector, one
    index lookup, the response writer and [pw.run()], one embedding call per
    document row, one embedding call per query row, and one chat call per row
    that the lookup answers, with the prompt built from that row.  The listing
    says nothing of the order in which the calls are issued. *)
Theorem calls_of_a_returning_contextful_run :
  forall o config,
    outcome o (ContextfulS3.run config) = Returned tt ->
    let embed (text : string) :=
      embedder_apply (OpenAIEmbeddingModel_new config.(ContextfulS3.api_key))
        text config.(ContextfulS3.embedder_locator) in
    let ask (text : string) :=
      model_apply (OpenAIChatGPTModel_new config.(ContextfulS3.api_key)) text
        config.(ContextfulS3.model_locator) config.(ContextfulS3.temperature)
        config.(ContextfulS3.max_tokens) in
    let read :=
      s3_read "llm_demo/data/"
        (AwsS3Settings_new "pathway-examples" "eu-central-1")
        "json" ContextfulS3.DocumentInputSchema "streaming" in
    let listen :=
      rest_connector config.(ContextfulS3.rest_host)
        config.(ContextfulS3.rest_port) ContextfulS3.QueryInputSchema 50 in
    exists documents queries enriched_documents asked nearest responses,
      let lookup :=
        index_query
          (KNNIndex_new enriched_documents
             config.(ContextfulS3.embedding_dimension)) asked 3 in
      o _ read = Returned documents
      /\ o _ listen = Returned queries
      /\ embedded_with o (fun row => embed (this.doc row)) documents
           enriched_documents
      /\ embedded_with o (fun row => embed (this.query row)) queries asked
      /\ o _ lookup = Returned nearest
      /\ trace o (ContextfulS3.run config)
         ≡ₚ [Ev read; Ev listen; Ev lookup; Ev (response_writer responses);
             Ev pw_run]
            ++ ((fun ir : Pointer * DocumentRow => Ev (embed (this.doc ir.2)))
                  <$> map_to_list documents)
            ++ ((fun ir : Pointer * QueryRow => Ev (embed (this.query ir.2)))
                  <$> map_to_list queries)
            ++ ((fun ir : Pointer * (QueryRow * Embedding * list string) =>
                   Ev (ask (ContextfulS3.build_prompt ir.2.2
                              (this.query ir.2.1.1))))
                  <$> map_to_list nearest).
Proof.
  intros o config H embed ask read listen.
  destruct (contextful_returned o config H)
    as (documents & ddata & queries & qdata & nearest & query_context
        & prompt & responses & Hd & Hdd & Hq & Hqd & Hn & Hc & Hp & Hr
        & _ & _ & Htr).
  cbv zeta in Hn, Htr.
  exists documents, queries, (documents + ddata)%T, (queries + qdata)%T,
    nearest, responses.
  cbv zeta. split_and!; [done | done | | | done |].
  - intros id. generalize (add_select_lookup o _ _ _ Hdd id).
    destruct (documents !! id) as [row |]; [| done].
    intros (e & He & Hz). rewrite outcome_trigger in He. eauto.
  - intros id. generalize (add_select_lookup o _ _ _ Hqd id).
    destruct (queries !! id) as [row |]; [| done].
    intros (e & He & Hz). rewrite outcome_trigger in He. eauto.
  - rewrite Htr. subst embed ask read listen.
    rewrite (trace_select_trigger o documents _ ddata Hdd).
    rewrite (trace_select_trigger o queries _ qdata Hqd).
    rewrite (trace_select_respond o _ _ _ _ prompt responses Hr).
    apply select_pure_fmap in Hc, Hp. subst prompt query_context.
    rewrite <- map_fmap_compose, map_to_list_fmap, <- list_fmap_compose.
    solve_Permutation.
Qed.

Lemma calls_of_a_returning_contextful_run_witness :
  let o := demo_oracle None in
  let embed (text : string) :=
    embedder_apply (OpenAIEmbeddingModel_new "sk-demo") text
      "text-embedding-ada-002" in
  let ask (text : string) :=
    model_apply (OpenAIChatGPTModel_new "sk-demo") text "gpt-3.5-turbo" 0.0 50 in
  let read :=
    s3_read "llm_demo/data/"
      (AwsS3Settings_new "pathway-examples" "eu-central-1")
      "json" ContextfulS3.DocumentInputSchema "streaming" in
  let listen :=
    rest_connector "0.0.0.0" 8080 ContextfulS3.QueryInputSchema 50 in
  exists documents queries enriched_documents asked nearest responses,
    let lookup := index_query (KNNIndex_new enriched_documents 1) asked 3 in
    o _ read = Returned documents
    /\ o _ listen = Returned queries
    /\ embedded_with o (fun row => embed (this.doc row)) documents
         enriched_documents
    /\ embedded_with o (fun row => embed (this.query row)) queries asked
    /\ o _ lookup = Returned nearest
    /\ trace o (ContextfulS3.run sample_config)
       ≡ₚ [Ev read; Ev listen; Ev lookup; Ev (response_writer responses);
           Ev pw_run]
          ++ ((fun ir : Pointer * DocumentRow => Ev (embed (this.doc ir.2)))
                <$> map_to_list documents)
          ++ ((fun ir : Pointer * QueryRow => Ev (embed (this.query ir.2)))
                <$> map_to_list queries)
          ++ ((fun ir : Pointer * (QueryRow * Embedding * list string) =>
                 Ev (ask (ContextfulS3.build_prompt ir.2.2
                            (this.query ir.2.1.1))))
                <$> map_to_list nearest).
Proof.
  apply (calls_of_a_returning_contextful_run (demo_oracle None) sample_config).
  vm_compute. reflexivity.
Defined.

(** ** The prompt, continued *)

(** X7.  Every document of the list occurs verbatim in the prompt, and the
    prompt ends with the query. *)
Theorem prompt_contains_the_documents_and_ends_with_the_query :
  forall documents query,
    (forall d, d ∈ documents ->
       occurs_in d (ContextfulS3.build_prompt documents query))
    /\ exists before,
         ContextfulS3.build_prompt documents query = (before ++ query)%string.
Proof.
  intros documents query.
  set (head := ("Given the following documents : " ++ ContextfulS3.LF ++ " ")%string).
  set (mid := (" " ++ ContextfulS3.LF ++ "answer this query: ")%string).
  assert (Hp : ContextfulS3.build_prompt documents query
               = (head ++ String.concat ContextfulS3.LF documents
                    ++ mid ++ query)%string) by reflexivity.
  split.
  - intros d Hd.
    destruct (concat_occurs ContextfulS3.LF documents d Hd)
      as (before & after & Hcat).
    exists (head ++ before)%string, (after ++ mid ++ query)%string.
    by rewrite Hp, Hcat, !string_app_assoc.
  - exists (head ++ String.concat ContextfulS3.LF documents ++ mid)%string.
    by rewrite Hp, !string_app_assoc.
Qed.

Lemma prompt_contains_the_documents_and_ends_with_the_query_witness :
  occurs_in "Tables are keyed by pointers."
    (ContextfulS3.build_prompt
       ["Pathway reads Kafka topics."; "Tables are keyed by pointers."]
       "What is a table?").
Proof.
  apply (proj1 (prompt_contains_the_documents_and_ends_with_the_query
                  ["Pathway reads Kafka topics."; "Tables are keyed by pointers."]
                  "What is a table?")).
  repeat constructor.
Defined.

(** X8.  The length of the prompt is 55 characters of fixed text, the
    lengths of the documents, one line feed between any two neighbouring
    documents, and the length of the query. *)
Theorem prompt_length :
  forall documents query,
    String.length (ContextfulS3.build_prompt documents query)
    = (55 + sum_list (String.length <$> documents) + (length documents - 1)
       + String.length query)%nat.
Proof.
  intros documents query.
  set (head := ("Given the following documents : " ++ ContextfulS3.LF ++ " ")%string).
  set (mid := (" " ++ ContextfulS3.LF ++ "answer this query: ")%string).
  change (ContextfulS3.build_prompt documents query)
    with (head ++ String.concat ContextfulS3.LF documents ++ mid ++ query)%string.
  rewrite !string_length_app, concat_length.
  change (String.length head) with 34%nat.
  change (String.length mid) with 21%nat.
  change (String.length ContextfulS3.LF) with 1%nat. lia.
Qed.

(** X9.  The prompt does not keep the documents apart: a document that
    contains a line feed gives the same prompt as its two parts given as two
    documents, and one empty document gives the same prompt as none. *)
Theorem prompt_does_not_determine_the_documents :
  forall query,
    (forall d1 d2 ds,
       ContextfulS3.build_prompt
         ((d1 ++ ContextfulS3.LF ++ d2)%string :: ds) query
       = ContextfulS3.build_prompt (d1 :: d2 :: ds) query)
    /\ ContextfulS3.build_prompt [""] query = ContextfulS3.build_prompt [] query.
Proof.
  intros query. split; [| reflexivity].
  intros d1 d2 ds. unfold ContextfulS3.build_prompt.
  assert (Hcat : String.concat ContextfulS3.LF
                   ((d1 ++ ContextfulS3.LF ++ d2)%string :: ds)
                 = String.concat ContextfulS3.LF (d1 :: d2 :: ds)).
  { destruct ds as [| d ds]; [done |].
    by rewrite !concat_cons_cons, !string_app_assoc. }
  by rewrite Hcat.
Qed.
